(** * Audio_Cutter: the selection-and-trim pipeline of [AudioCutter.tsx]

    A shallow embedding of the React component [AudioCutter] (file
    [src/app/components/AudioCutter.tsx]) and of its second version
    ([src/unnamed/part_000], called [part_000] below), with the
    properties of the component's specification stated over it.

    - JavaScript numbers are IEEE 754 binary64 values: Rocq's primitive
      floats, so every arithmetic expression of the component evaluates
      here to the bits it evaluates to in the browser.
    - The browser interfaces the component calls ([createBuffer],
      [Float32Array.prototype.slice], [copyToChannel], [Blob]) and the
      Mantine [Slider] are modelled by what their standards and
      documentation prescribe for the calls the component makes; each
      definition says which rule it follows.  What wavesurfer's
      [destroy] does to the listeners of an instance is a parameter.
    - React state is a record; a handler is the sequence of its
      statements, run on the page of the render it closes over, and
      [useEffect] runs with the render that follows the handler. *)

From Stdlib Require Import ZArith QArith Qround List Bool String Ascii Lia.
From Stdlib Require Import Floats.PrimFloat Floats.SpecFloat Floats.FloatOps.
From Stdlib Require Import Floats.FloatAxioms.
From Stdlib Require Import Uint63.
Import ListNotations.

(** ** JavaScript numbers *)

Module JS.

Definition number := float.

(** The result of ECMAScript's ToIntegerOrInfinity. *)
Inductive integer_or_infinity :=
| Finite (z : Z)
| PlusInfinity
| MinusInfinity.

(** Integer part (toward zero) of [(-1)^s * m * 2^e]. *)
Definition truncate (s : bool) (m : positive) (e : Z) : Z :=
  let a := if (0 <=? e)%Z then Z.shiftl (Zpos m) e
           else Z.shiftr (Zpos m) (- e) in
  if s then (- a)%Z else a.

(** ToIntegerOrInfinity: NaN and the zeros give 0, the infinities stay,
    any other number is truncated toward zero. *)
Definition ToIntegerOrInfinity (x : number) : integer_or_infinity :=
  match Prim2SF x with
  | S754_nan => Finite 0
  | S754_zero _ => Finite 0
  | S754_infinity s => if s then MinusInfinity else PlusInfinity
  | S754_finite s m e => Finite (truncate s m e)
  end.

(** WebIDL's conversion of a number to [unsigned long] (no
    [EnforceRange], no [Clamp]): NaN, zeros and infinities give 0, any
    other number is truncated and taken modulo 2^32. *)
Definition ToUint32 (x : number) : Z :=
  match ToIntegerOrInfinity x with
  | Finite z => (z mod 2 ^ 32)%Z
  | PlusInfinity | MinusInfinity => 0%Z
  end.

(** The real number a finite float stands for, as a rational. *)
Definition exact (x : number) : Q :=
  match Prim2SF x with
  | S754_finite s m e =>
      ((if s then Zneg m else Zpos m) # 1) * Qpower (2 # 1) e
  | _ => 0
  end.

Definition of_nat (n : nat) : number :=
  PrimFloat.of_uint63 (Uint63.of_Z (Z.of_nat n)).

(** [Math.min] and [Math.max] (a NaN argument gives NaN; the two zeros
    are not told apart). *)
Definition Math_min (a b : number) : number :=
  if PrimFloat.is_nan a || PrimFloat.is_nan b then nan
  else if PrimFloat.ltb b a then b else a.

Definition Math_max (a b : number) : number :=
  if PrimFloat.is_nan a || PrimFloat.is_nan b then nan
  else if PrimFloat.ltb a b then b else a.

(** Exceptions the component can meet. *)
Inductive exn :=
| NotSupportedError
| IndexSizeError
| EncodingError
| TypeError.

(** A computation that returns or throws. *)
Inductive completion (A : Type) :=
| Return (a : A)
| Throw (e : exn).
Arguments Return {A} a.
Arguments Throw {A} e.

Definition bind {A B} (c : completion A) (k : A -> completion B)
  : completion B :=
  match c with
  | Return a => k a
  | Throw e => Throw e
  end.

End JS.

Import JS.

Notation "x <- c ;; k" := (JS.bind c (fun x => k))
  (at level 61, c at next level, right associativity).

(** ** The Web Audio and File interfaces the component calls *)

Module WebAudio.

(** An [AudioBuffer]: [getChannelData c] is the [c]-th list of
    [channelData]; [numberOfChannels] is their number. *)
Record AudioBuffer := mkAudioBuffer {
  sampleRate : number;
  length : nat;
  channelData : list (list number)
}.

Definition numberOfChannels (b : AudioBuffer) : nat :=
  List.length (channelData b).

(** [AudioBuffer.duration]: [length / sampleRate]. *)
Definition duration_of (b : AudioBuffer) : number :=
  (JS.of_nat (length b) / sampleRate b)%float.

(** [BaseAudioContext.createBuffer(numberOfChannels, length, sampleRate)]:
    [length] is an [unsigned long]; a zero [numberOfChannels] or a zero
    [length] is answered with NotSupportedError; the new buffer is
    silent.  The sample rate always comes from a decoded buffer of the
    same context here, so its range check is not modelled. *)
Definition createBuffer (channels : nat) (len : number) (rate : number)
  : completion AudioBuffer :=
  let n := ToUint32 len in
  if (channels =? 0)%nat || (n =? 0)%Z then Throw NotSupportedError
  else Return {| sampleRate := rate;
                 length := Z.to_nat n;
                 channelData := repeat (repeat 0%float (Z.to_nat n)) channels |}.

(** One bound of [%TypedArray%.prototype.slice] on an array of [len]
    elements. *)
Definition relative_index (len : nat) (x : number) : nat :=
  match ToIntegerOrInfinity x with
  | MinusInfinity => 0
  | PlusInfinity => len
  | Finite z =>
      if (z <? 0)%Z then Z.to_nat (Z.max (Z.of_nat len + z) 0)
      else Z.to_nat (Z.min z (Z.of_nat len))
  end.

(** [Float32Array.prototype.slice(start, end)]: a fresh array holding
    the elements from [k] up to [final], none when [final <= k]. *)
Definition slice (a : list number) (start end_ : number) : list number :=
  let k := relative_index (List.length a) start in
  let final := relative_index (List.length a) end_ in
  firstn (final - k) (skipn k a).

(** Writing [source] at the front of [dst]: as many elements as fit,
    the rest of [dst] is left as it was. *)
Definition overwrite (dst source : list number) : list number :=
  firstn (List.length dst) source ++ skipn (List.length source) dst.

Fixpoint update_nth (c : nat) (f : list number -> list number)
  (l : list (list number)) : list (list number) :=
  match l, c with
  | [], _ => []
  | ch :: rest, O => f ch :: rest
  | ch :: rest, S c' => ch :: update_nth c' f rest
  end.

(** [AudioBuffer.copyToChannel(source, channelNumber)] with the default
    offset 0: IndexSizeError for a channel the buffer does not have. *)
Definition copyToChannel (b : AudioBuffer) (source : list number)
  (channel : nat) : completion AudioBuffer :=
  if (channel <? numberOfChannels b)%nat then
    Return {| sampleRate := sampleRate b;
              length := length b;
              channelData :=
                update_nth channel (fun dst => overwrite dst source)
                  (channelData b) |}
  else Throw IndexSizeError.

(** [getChannelData(channel)] of a channel the loop may ask for. *)
Definition getChannelData (b : AudioBuffer) (channel : nat) : list number :=
  nth channel (channelData b) [].

(** A [BlobPart] as the [Blob] constructor reads the elements of its
    array: buffer sources and blobs give their bytes, a string its
    UTF-8 bytes, and any other object is first converted to a string.
    An [AudioBuffer] is neither a buffer source nor a blob. *)
Inductive BlobPart :=
| BufferSourcePart (bytes : list Byte.byte)
| StringPart (s : string)
| AudioBufferPart (b : AudioBuffer).

(** [Object.prototype.toString] of an [AudioBuffer]. *)
Definition AudioBuffer_toString (b : AudioBuffer) : string :=
  "[object AudioBuffer]"%string.

Definition part_bytes (p : BlobPart) : list Byte.byte :=
  match p with
  | BufferSourcePart bytes => bytes
  | StringPart s => list_byte_of_string s
  | AudioBufferPart b => list_byte_of_string (AudioBuffer_toString b)
  end.

Record Blob := mkBlob {
  blob_bytes : list Byte.byte;
  blob_type : string
}.

(** [new Blob(parts, { type })]. *)
Definition new_Blob (parts : list BlobPart) (type : string) : Blob :=
  {| blob_bytes := flat_map part_bytes parts; blob_type := type |}.

End WebAudio.

Import WebAudio.

Open Scope float_scope.

(** ** The component *)

Module AudioCutter.

(** A [File] object and a [WaveSurfer] instance, each by identity. *)
Definition File := nat.
Definition WaveSurfer := nat.

(** The two versions of the component under [src/]. *)
Inductive variant :=
| AudioCutter_tsx
| part_000.

(** The six [useState] cells. *)
Record State := mkState {
  audioFile : option File;
  waveSurferInstance : option WaveSurfer;
  isPlaying : bool;
  duration : number;
  start : number;
  end_ : number
}.

Definition initial : State :=
  {| audioFile := None; waveSurferInstance := None; isPlaying := false;
     duration := 0; start := 0; end_ := 100 |}.

(** The selection, as the two sliders hold it. *)
Definition TimeRange (s : State) : number * number := (start s, end_ s).

(** What the component does to the outside: calls on a player, the
    download, the audition of the trimmed buffer, the console. *)
Inductive call :=
| WaveSurfer_create (w : WaveSurfer) (f : File)
| ws_destroy (w : WaveSurfer)
| ws_stop (w : WaveSurfer)
| ws_play (w : WaveSurfer)
| ws_playPause (w : WaveSurfer)
| a_click (download : string) (blob : Blob)
| source_start (buffer : AudioBuffer)
| console_error (e : exn)
| uncaught (e : exn).

(** The mounted component: its state, the instance the last run of the
    effect created and whose cleanup is pending, the next fresh
    instance, and the calls made so far.  Calls on a player are
    recorded and taken to return. *)
Record Page := mkPage {
  state : State;
  effect_instance : option WaveSurfer;
  next_instance : WaveSurfer;
  calls : list call
}.

Definition initial_page : Page :=
  {| state := initial; effect_instance := None; next_instance := 0%nat;
     calls := [] |}.

(** The body of a handler or of a listener: its statements, run in
    order on the page. *)
Definition Handler := Page -> Page.

Definition skip : Handler := fun p => p.

Definition andThen (h k : Handler) : Handler := fun p => k (h p).

Notation "h ;; k" := (andThen h k) (at level 61, right associativity).

Definition set_state (f : State -> State) : Handler :=
  fun p => mkPage (f (state p)) (effect_instance p) (next_instance p) (calls p).

Definition emit (cs : list call) : Handler :=
  fun p => mkPage (state p) (effect_instance p) (next_instance p) (calls p ++ cs).

(** The six setters. *)
Definition setAudioFile (f : option File) : Handler :=
  set_state (fun s =>
    mkState f (waveSurferInstance s) (isPlaying s) (duration s) (start s) (end_ s)).
Definition setWaveSurferInstance (w : option WaveSurfer) : Handler :=
  set_state (fun s =>
    mkState (audioFile s) w (isPlaying s) (duration s) (start s) (end_ s)).
Definition setIsPlaying (b : bool) : Handler :=
  set_state (fun s =>
    mkState (audioFile s) (waveSurferInstance s) b (duration s) (start s) (end_ s)).
Definition setDuration (d : number) : Handler :=
  set_state (fun s =>
    mkState (audioFile s) (waveSurferInstance s) (isPlaying s) d (start s) (end_ s)).
Definition setStart (x : number) : Handler :=
  set_state (fun s =>
    mkState (audioFile s) (waveSurferInstance s) (isPlaying s) (duration s) x (end_ s)).
Definition setEnd (x : number) : Handler :=
  set_state (fun s =>
    mkState (audioFile s) (waveSurferInstance s) (isPlaying s) (duration s) (start s) x).

(** [if (waveSurferInstance) { ... }], the instance being the one of the
    render [p] the handler closes over. *)
Definition if_instance (p : Page) (body : WaveSurfer -> Handler) : Handler :=
  match waveSurferInstance (state p) with
  | Some w => body w
  | None => skip
  end.

(** *** [useEffect(..., [audioFile])] *)

Definition same_file (a b : option File) : bool :=
  match a, b with
  | None, None => true
  | Some x, Some y => (x =? y)%nat
  | _, _ => false
  end.

(** The cleanup [() => wavesurfer.destroy()] of the previous run. *)
Definition cleanup : Handler :=
  fun p =>
    match effect_instance p with
    | Some w =>
        mkPage (state p) None (next_instance p) (calls p ++ [ws_destroy w])
    | None => p
    end.

(** The effect body.  The waveform container is always rendered, so
    [waveformRef.current] is set; with a file, a new instance is
    created, its ['ready'] and ['finish'] listeners are attached and it
    is stored in [waveSurferInstance]; without one, nothing. *)
Definition effect_body : Handler :=
  fun p =>
    match audioFile (state p) with
    | Some f =>
        let wavesurfer := next_instance p in
        setWaveSurferInstance (Some wavesurfer)
          (mkPage (state p) (Some wavesurfer) (S wavesurfer)
             (calls p ++ [WaveSurfer_create wavesurfer f]))
    | None => p
    end.

(** The effect runs again only when [audioFile] is another object than
    at the previous render ([prev]). *)
Definition useEffect (prev : option File) : Handler :=
  fun p =>
    if same_file prev (audioFile (state p)) then p
    else (cleanup ;; effect_body) p.

(** *** The listeners of an instance *)

(** [wavesurfer.on('ready', ...)], [d] being [wavesurfer.getDuration()]. *)
Definition on_ready (v : variant) (wavesurfer : WaveSurfer) (d : number)
  : Handler :=
  match v with
  | AudioCutter_tsx =>
      setDuration d ;;
      setEnd d
  | part_000 =>
      setDuration d ;;
      setEnd d ;;
      emit [ws_play wavesurfer] ;;
      setIsPlaying true
  end.

(** [wavesurfer.on('finish', ...)]. *)
Definition on_finish : Handler :=
  setIsPlaying false.

(** *** The handlers *)

(** [files[0]] of a [FileList]. *)
Definition first_file (files : list File) : option File :=
  nth_error files 0%nat.

Definition handleFileChange (v : variant) (files : option (list File))
  : Handler :=
  fun p =>
    match files with
    | None => p
    | Some files =>
        match v with
        | AudioCutter_tsx =>
            (if_instance p (fun w => emit [ws_stop w]) ;;
             setAudioFile (first_file files) ;;
             setStart 0 ;;
             setEnd 100 ;;
             setIsPlaying false) p
        | part_000 =>
            (if_instance p (fun w => emit [ws_stop w] ;; setIsPlaying false) ;;
             setAudioFile (first_file files) ;;
             setStart 0 ;;
             setEnd 100) p
        end
    end.

(** [handlePlayPause] (of [AudioCutter.tsx]; [part_000] has none). *)
Definition handlePlayPause : Handler :=
  fun p =>
    if_instance p (fun w =>
      emit [ws_playPause w] ;;
      setIsPlaying (negb (isPlaying (state p)))) p.

Definition handleReset : Handler :=
  fun p =>
    if_instance p (fun w =>
      emit [ws_stop w] ;;
      setAudioFile None ;;
      setDuration 0 ;;
      setStart 0 ;;
      setEnd 100 ;;
      setIsPlaying false) p.

(** The value a Mantine [Slider] with bounds [min] and [max] passes to
    [onChange] when the user aims at [v]: the last step of the widget
    is [Math.max(Math.min(v, max), min)]. *)
Definition Slider_onChange (min max v : number) : number :=
  Math_max (Math_min v max) min.

(** The two sliders, [<Slider onChange={setStart} min={0} max={end} />]
    and [<Slider onChange={setEnd} min={start} max={100} />], are
    rendered only when [duration > 0]. *)
Definition start_slider (v : number) : Handler :=
  fun p =>
    if 0 <? duration (state p) then
      setStart (Slider_onChange 0 (end_ (state p)) v) p
    else p.

Definition end_slider (v : number) : Handler :=
  fun p =>
    if 0 <? duration (state p) then
      setEnd (Slider_onChange (start (state p)) 100 v) p
    else p.

(** *** [handleTrim] *)

(** [(x / 100) * duration], for the labels and for [handleTrim]. *)
Definition toSeconds (x duration : number) : number :=
  (x / 100) * duration.

Definition startTime (s : State) : number := toSeconds (start s) (duration s).
Definition endTime (s : State) : number := toSeconds (end_ s) (duration s).

(** The [for] loop over the channels. *)
Fixpoint copy_channels (buffer : AudioBuffer) (startTime endTime : number)
  (channels : list nat) (trimmedBuffer : AudioBuffer)
  : completion AudioBuffer :=
  match channels with
  | [] => Return trimmedBuffer
  | channel :: rest =>
      trimmedBuffer' <-
        copyToChannel trimmedBuffer
          (slice (getChannelData buffer channel)
             (startTime * sampleRate buffer) (endTime * sampleRate buffer))
          channel ;;
      copy_channels buffer startTime endTime rest trimmedBuffer'
  end.

(** The buffer the third [then] builds. *)
Definition trim (buffer : AudioBuffer) (startTime endTime : number)
  : completion AudioBuffer :=
  trimmedBuffer <-
    createBuffer (numberOfChannels buffer)
      (sampleRate buffer * (endTime - startTime)) (sampleRate buffer) ;;
  copy_channels buffer startTime endTime
    (seq 0%nat (numberOfChannels buffer)) trimmedBuffer.

(** The blob handed to the download link. *)
Definition export (trimmedBuffer : AudioBuffer) : Blob :=
  new_Blob [AudioBufferPart trimmedBuffer] "audio/wav".

(** The third [then]: build, download, play. *)
Definition then_trim (buffer : AudioBuffer) (startTime endTime : number)
  : completion (list call) :=
  trimmedBuffer <- trim buffer startTime endTime ;;
  Return [a_click "trimmed-audio.wav" (export trimmedBuffer);
          source_start trimmedBuffer].

(** The promise chain with its [catch]; [decoded] is what
    [decodeAudioData] settles with. *)
Definition trim_chain (decoded : completion AudioBuffer)
  (startTime endTime : number) : list call :=
  match (buffer <- decoded ;; then_trim buffer startTime endTime) with
  | Return cs => cs
  | Throw e => [console_error e]
  end.

(** [handleTrim].  The promise chain reads nothing of the component
    after the click (it closes over [audioFile], [startTime] and
    [endTime]) and calls no setter, so its calls are recorded with the
    click.  [URL.createObjectURL(null)] throws before any promise
    exists. *)
Definition handleTrim (decodeAudioData : File -> completion AudioBuffer)
  : Handler :=
  fun p =>
    let s := state p in
    match waveSurferInstance s with
    | Some _ =>
        if 0 <? duration s then
          match audioFile s with
          | Some f =>
              emit (trim_chain (decodeAudioData f) (startTime s) (endTime s)) p
          | None => emit [uncaught TypeError] p
          end
        else p
    | None => p
    end.

(** *** Events and steps *)

Inductive event :=
| FileChange (files : option (list File))
| StartSlider (v : number)
| EndSlider (v : number)
| PlayPause
| Reset
| Trim
| Ready (w : WaveSurfer) (d : number)
| Finish (w : WaveSurfer).

(** What the sources leave to wavesurfer.js: whether [destroy] also
    removes the listeners that were added with [on].  Releases of the
    library differ in this, and the sources do not pin one. *)
Inductive listeners_after_destroy :=
| removed
| kept.

Definition effect_instance_is (w : WaveSurfer) (p : Page) : bool :=
  match effect_instance p with
  | Some w' => (w =? w')%nat
  | None => false
  end.

(** Whether an event of the instance [w] finds the listeners that its
    effect attached: always while [w] is the effect's instance; once it
    was destroyed, only when [destroy] keeps them. *)
Definition listening (ws : listeners_after_destroy) (w : WaveSurfer)
  (p : Page) : bool :=
  match ws with
  | removed => effect_instance_is w p
  | kept => (w <? next_instance p)%nat
  end.

Section Run.

Variable ws : listeners_after_destroy.
Variable v : variant.
Variable decodeAudioData : File -> completion AudioBuffer.

(** What an event runs.  [part_000] renders nothing that calls
    [handlePlayPause]. *)
Definition handle (ev : event) : Handler :=
  fun p =>
    match ev with
    | FileChange files => handleFileChange v files p
    | StartSlider x => start_slider x p
    | EndSlider x => end_slider x p
    | PlayPause =>
        match v with
        | AudioCutter_tsx => handlePlayPause p
        | part_000 => p
        end
    | Reset => handleReset p
    | Trim => handleTrim decodeAudioData p
    | Ready w d => if listening ws w p then on_ready v w d p else p
    | Finish w => if listening ws w p then on_finish p else p
    end.

(** One event: the handler, then the render and its effect. *)
Definition step (ev : event) : Handler :=
  fun p => useEffect (audioFile (state p)) (handle ev p).

Definition run (evs : list event) (p : Page) : Page :=
  fold_left (fun p ev => step ev p) evs p.

End Run.

End AudioCutter.

Import AudioCutter.

(** ** Notions the properties are stated with *)

(** The pages the component can be in keep the instances in order. *)
Record consistent (p : Page) : Prop := {
  effect_fresh :
    forall w, effect_instance p = Some w -> (w < next_instance p)%nat;
  file_mounted :
    forall f, audioFile (state p) = Some f ->
      exists w, effect_instance p = Some w /\
                waveSurferInstance (state p) = Some w;
  nothing_mounted :
    audioFile (state p) = None -> effect_instance p = None
}.


(** The number [createBuffer] receives as the length, and the frame
    count it makes of it. *)
Definition requested_length (buffer : AudioBuffer)
  (startTime endTime : number) : number :=
  sampleRate buffer * (endTime - startTime).

Definition frame_count (buffer : AudioBuffer)
  (startTime endTime : number) : Z :=
  ToUint32 (requested_length buffer startTime endTime).

(** The nearest integer of a rational, ties upward (as [Math.round])
    and ties downward. *)
Definition round (q : Q) : Z := Qfloor (q + (1 # 2)).
Definition round_down (q : Q) : Z := Qceiling (q - (1 # 2)).

(** *** Test clips *)

Module Fixtures.

(** [x], [x + 1], ...: [n] samples that are all different. *)
Fixpoint ramp_from (x : number) (n : nat) : list number :=
  match n with
  | O => []
  | S n' => x :: ramp_from (x + 1) n'
  end.

(** A decoded clip of [frames] frames whose channels all hold the ramp
    1, 2, ..., [frames]. *)
Definition clip (rate : number) (frames channels : nat) : AudioBuffer :=
  {| sampleRate := rate;
     length := frames;
     channelData := repeat (ramp_from 1 frames) channels |}.

(** A decoder that knows one file. *)
Definition decoder (f : File) (b : AudioBuffer) : File -> completion AudioBuffer :=
  fun g => if (g =? f)%nat then Return b else Throw EncodingError.

End Fixtures.

Import Fixtures.

(** The values a slider of step 1 can hold, the values a user can aim
    at (also beyond both ends), and the order of the specification. *)
Definition percentages : list number := ramp_from 0 101.

Definition aims : list number := ramp_from (-50) 201.

Definition in_order (s e : number) : bool :=
  (0 <=? s) && (s <=? e) && (e <=? 100).



(** *** The order of the numbers *)




Definition lex_le (a b : Z * Z * Z) : Prop :=
  let '(a1, a2, a3) := a in
  let '(b1, b2, b3) := b in
  (a1 < b1 \/ (a1 = b1 /\ (a2 < b2 \/ (a2 = b2 /\ a3 <= b3))))%Z.

Definition lex_lt (a b : Z * Z * Z) : Prop :=
  let '(a1, a2, a3) := a in
  let '(b1, b2, b3) := b in
  (a1 < b1 \/ (a1 = b1 /\ (a2 < b2 \/ (a2 = b2 /\ a3 < b3))))%Z.

(** *** The range and the events that keep it *)




(** *** The players that are alive *)

(** The instances that were created and not destroyed by a sequence of
    calls, starting from those in [living]. *)
Fixpoint alive_after (cs : list call) (living : list WaveSurfer)
  : list WaveSurfer :=
  match cs with
  | [] => living
  | WaveSurfer_create w _ :: rest => alive_after rest (living ++ [w])
  | ws_destroy w :: rest => alive_after rest (remove Nat.eq_dec w living)
  | _ :: rest => alive_after rest living
  end.

Definition alive (p : Page) : list WaveSurfer := alive_after (calls p) [].

(** A call that neither creates nor destroys a player. *)
Definition quiet (c : call) : bool :=
  match c with
  | WaveSurfer_create _ _ | ws_destroy _ => false
  | _ => true
  end.

(** What a click on Trim adds to the calls once [duration > 0]. *)
Definition trim_outcome (decodeAudioData : File -> completion AudioBuffer)
  (s : State) : list call :=
  match audioFile s with
  | None => [uncaught TypeError]
  | Some f =>
      match decodeAudioData f with
      | Throw e => [console_error e]
      | Return buffer =>
          match trim buffer (startTime s) (endTime s) with
          | Throw e => [console_error e]
          | Return trimmedBuffer =>
              [a_click "trimmed-audio.wav" (export trimmedBuffer);
               source_start trimmedBuffer]
          end
      end
  end.

(** *** What a channel of the trimmed buffer holds *)



(** ** The platform functions on small inputs *)

Example ToUint32_truncates : ToUint32 3.75 = 3%Z.
Proof. vm_compute. reflexivity. Qed.

Example ToUint32_wraps : ToUint32 (-5.25) = 4294967291%Z.
Proof. vm_compute. reflexivity. Qed.

Example slice_truncates :
  slice [1; 2; 3; 4; 5] 1.5 3.75 = [2; 3].
Proof. vm_compute. reflexivity. Qed.

Example slice_crossed : slice [1; 2; 3; 4; 5] 3 1 = [].
Proof. vm_compute. reflexivity. Qed.

Example overwrite_short : overwrite [0; 0; 0] [7; 8] = [7; 8; 0].
Proof. reflexivity. Qed.

Example overwrite_long : overwrite [0; 0] [7; 8; 9] = [7; 8].
Proof. reflexivity. Qed.

(** ** Facts about the effect and the instances *)

(** Unfolding the handlers down to the pages they build. *)
Ltac handlers :=
  unfold handle, handleFileChange, handlePlayPause, handleReset,
    handleTrim, start_slider, end_slider, on_ready, on_finish, if_instance,
    andThen, skip, setAudioFile, setWaveSurferInstance, setIsPlaying,
    setDuration, setStart, setEnd, set_state, emit in *.

Ltac split_matches :=
  repeat match goal with
    | |- context [match ?x with _ => _ end] => destruct x eqn:?; simpl
    end.

Section Instances.

Variable ws : listeners_after_destroy.
Variable v : variant.
Variable decodeAudioData : File -> completion AudioBuffer.

Local Abbreviation step := (step ws v decodeAudioData).
Local Abbreviation run := (run ws v decodeAudioData).
Local Abbreviation handle := (handle ws v decodeAudioData).

Lemma same_file_refl (a : option File) : same_file a a = true.
Proof. destruct a as [x|]; simpl; [apply Nat.eqb_refl | reflexivity]. Qed.

Lemma same_file_true (a b : option File) : same_file a b = true -> a = b.
Proof.
  destruct a as [x|], b as [y|]; simpl; try discriminate; auto.
  intros H. apply Nat.eqb_eq in H. now subst.
Qed.

Lemma run_snoc (evs : list event) (ev : event) (p : Page) :
  run (evs ++ [ev]) p = step ev (run evs p).
Proof. unfold AudioCutter.run. now rewrite fold_left_app. Qed.

(** No handler and no listener touches the instances: only the effect
    does. *)
Lemma handle_instances (ev : event) (p : Page) :
  effect_instance (handle ev p) = effect_instance p /\
  next_instance (handle ev p) = next_instance p /\
  waveSurferInstance (state (handle ev p)) = waveSurferInstance (state p).
Proof.
  destruct ev; handlers; destruct v; simpl;
    split_matches; simpl; repeat split; congruence.
Qed.

Lemma initial_consistent : consistent initial_page.
Proof. split; simpl; intros; discriminate || auto. Qed.

Lemma useEffect_consistent (prev : option File) (q : Page) :
  (same_file prev (audioFile (state q)) = true ->
     (forall w, effect_instance q = Some w -> (w < next_instance q)%nat) /\
     (forall f, prev = Some f ->
        exists w, effect_instance q = Some w /\
                  waveSurferInstance (state q) = Some w) /\
     (prev = None -> effect_instance q = None)) ->
  consistent (useEffect prev q).
Proof.
  intros H. unfold useEffect.
  destruct (same_file prev (audioFile (state q))) eqn:E.
  - destruct (H eq_refl) as (H1 & H2 & H3).
    apply same_file_true in E.
    split; [exact H1 | rewrite <- E; exact H2 | rewrite <- E; exact H3].
  - unfold andThen, effect_body, cleanup, setWaveSurferInstance, set_state.
    destruct (effect_instance q) as [w|] eqn:W; simpl;
      destruct (audioFile (state q)) as [f|] eqn:F; simpl;
      split; simpl; intros; try rewrite F in *; try congruence; auto;
      try (match goal with H0 : Some _ = Some _ |- _ => inversion H0; subst; lia end);
      eauto.
Qed.

Lemma step_consistent (ev : event) (p : Page) :
  consistent p -> consistent (step ev p).
Proof.
  intros [H1 H2 H3]. unfold AudioCutter.step.
  apply useEffect_consistent. intros _.
  destruct (handle_instances ev p) as (E1 & E2 & E3).
  fold handle. rewrite E1, E2, E3. auto.
Qed.

Lemma run_consistent (evs : list event) :
  consistent (run evs initial_page).
Proof.
  induction evs as [|ev evs IH] using rev_ind.
  - apply initial_consistent.
  - rewrite run_snoc. now apply step_consistent.
Qed.






(** A step that leaves [audioFile] alone is its handler. *)
Lemma step_same_file (ev : event) (p : Page) :
  audioFile (state (handle ev p)) = audioFile (state p) ->
  step ev p = handle ev p.
Proof.
  intros H. unfold AudioCutter.step, useEffect. fold handle.
  now rewrite H, same_file_refl.
Qed.


(** The effect writes no cell but [waveSurferInstance]. *)
Lemma useEffect_cells (prev : option File) (q : Page) :
  let s := state (useEffect prev q) in
  isPlaying s = isPlaying (state q) /\ duration s = duration (state q) /\
  start s = start (state q) /\ end_ s = end_ (state q).
Proof.
  unfold useEffect, andThen, effect_body, cleanup, setWaveSurferInstance, set_state.
  destruct (same_file _ _); simpl; auto.
  destruct (effect_instance q); simpl;
    destruct (audioFile (state q)); simpl; auto.
Qed.


(** The effect never changes the file. *)
Lemma useEffect_audioFile (prev : option File) (q : Page) :
  audioFile (state (useEffect prev q)) = audioFile (state q).
Proof.
  unfold useEffect, andThen, effect_body, cleanup, setWaveSurferInstance, set_state.
  destruct (same_file _ _); [reflexivity|].
  destruct (effect_instance q); simpl;
    destruct (audioFile (state q)) eqn:F; simpl; congruence.
Qed.


End Instances.

(** ** Facts about [trim] *)

Section Trim.

Variable buffer : AudioBuffer.
Variables startTime endTime : number.

Lemma ToUint32_range (x : number) : (0 <= ToUint32 x < 2 ^ 32)%Z.
Proof.
  unfold ToUint32. destruct (ToIntegerOrInfinity x); try lia.
  apply Z.mod_pos_bound. lia.
Qed.

Lemma update_nth_length (c : nat) (f : list number -> list number)
  (l : list (list number)) :
  List.length (update_nth c f l) = List.length l.
Proof.
  revert c. induction l as [|ch l IH]; intros [|c]; simpl; auto.
Qed.

(** A copy into a channel the buffer has returns, and keeps the shape. *)
Lemma copyToChannel_returns (b : AudioBuffer) (source : list number)
  (channel : nat) :
  (channel < numberOfChannels b)%nat ->
  exists b', copyToChannel b source channel = Return b' /\
    length b' = length b /\ sampleRate b' = sampleRate b /\
    numberOfChannels b' = numberOfChannels b.
Proof.
  intros H. unfold copyToChannel.
  apply Nat.ltb_lt in H. rewrite H.
  eexists. split; [reflexivity|]. simpl. repeat split.
  unfold numberOfChannels. simpl. apply update_nth_length.
Qed.

(** The loop returns when it only names channels of the new buffer. *)
Lemma copy_channels_returns (channels : list nat) :
  forall trimmedBuffer,
    Forall (fun c => (c < numberOfChannels trimmedBuffer)%nat) channels ->
    exists b', copy_channels buffer startTime endTime channels trimmedBuffer
               = Return b' /\
      length b' = length trimmedBuffer /\
      sampleRate b' = sampleRate trimmedBuffer /\
      numberOfChannels b' = numberOfChannels trimmedBuffer.
Proof.
  induction channels as [|c rest IH]; intros tb H; simpl.
  - eexists. repeat split.
  - inversion H as [|? ? Hc Hrest]; subst.
    destruct (copyToChannel_returns tb
                (slice (getChannelData buffer c)
                   (startTime * sampleRate buffer) (endTime * sampleRate buffer))
                c Hc) as (tb' & E & L & R & N).
    rewrite E. simpl.
    destruct (IH tb') as (b' & E' & L' & R' & N').
    { rewrite N. exact Hrest. }
    exists b'. repeat split; congruence.
Qed.

(** [trim] returns a buffer exactly when [createBuffer] accepts the
    length; the buffer then has [frame_count] frames and the channel
    count and sample rate of the decoded one. *)
Lemma trim_returns :
  (1 <= numberOfChannels buffer)%nat ->
  frame_count buffer startTime endTime <> 0%Z ->
  exists trimmedBuffer,
    trim buffer startTime endTime = Return trimmedBuffer /\
    Z.of_nat (length trimmedBuffer) = frame_count buffer startTime endTime /\
    sampleRate trimmedBuffer = sampleRate buffer /\
    numberOfChannels trimmedBuffer = numberOfChannels buffer.
Proof.
  intros Hc Hn. unfold trim, createBuffer.
  fold (requested_length buffer startTime endTime).
  fold (frame_count buffer startTime endTime).
  destruct (Nat.eqb_spec (numberOfChannels buffer) 0); [lia|].
  destruct (Z.eqb_spec (frame_count buffer startTime endTime) 0); [contradiction|]. simpl.
  set (tb := {| sampleRate := sampleRate buffer;
                length := Z.to_nat (frame_count buffer startTime endTime);
                channelData := _ |}).
  assert (N : numberOfChannels tb = numberOfChannels buffer).
  { unfold numberOfChannels at 1. simpl. apply repeat_length. }
  destruct (copy_channels_returns (seq 0%nat (numberOfChannels buffer)) tb)
    as (b' & E & L & R & N').
  { apply Forall_forall. intros c Hin. apply in_seq in Hin. rewrite N. lia. }
  exists b'. split; [exact E|].
  rewrite L, R, N', N. simpl. repeat split.
  apply Z2Nat.id. apply ToUint32_range.
Qed.


End Trim.

(** What the download carries does not depend on the buffer. *)
Lemma export_bytes (trimmedBuffer : AudioBuffer) :
  blob_bytes (export trimmedBuffer)
  = list_byte_of_string "[object AudioBuffer]".
Proof. reflexivity. Qed.

(** Whenever the third [then] completes, its download is named
    [trimmed-audio.wav] and is followed by the audition. *)
Lemma then_trim_calls (buffer : AudioBuffer) (startTime endTime : number)
  (cs : list call) :
  then_trim buffer startTime endTime = Return cs ->
  exists trimmedBuffer,
    trim buffer startTime endTime = Return trimmedBuffer /\
    cs = [a_click "trimmed-audio.wav" (export trimmedBuffer);
          source_start trimmedBuffer].
Proof.
  unfold then_trim. destruct (trim buffer startTime endTime) as [tb|e]; simpl.
  - intros H. inversion H. now exists tb.
  - discriminate.
Qed.

(** ** The claims *)

(** *** The ['ready'] listener *)


(** C1.  When ['ready'] fires after a file was selected, the reported
    duration [d] is recorded, but the selection becomes [(0, d)]: [end_]
    receives the duration in seconds, not 100.  For a 30-second file the
    range is [(0, 30)], whose end lies below 100. *)
Theorem ready_sets_end_to_duration :
  forall (ws : listeners_after_destroy) (v : variant)
         (decodeAudioData : File -> completion AudioBuffer)
         (f : File) (d : number),
    let p := run ws v decodeAudioData
               [FileChange (Some [f]); Ready 0%nat d] initial_page in
    let p30 := run ws v decodeAudioData
                 [FileChange (Some [f]); Ready 0%nat 30] initial_page in
    duration (state p) = d /\
    TimeRange (state p) = (0, d) /\
    TimeRange (state p30) = (0, 30) /\
    (end_ (state p30) <? 100) = true.
Proof.
  intros ws v dec f d; destruct ws, v; cbv zeta;
    unfold run, step, useEffect; simpl; rewrite !Nat.eqb_refl; simpl;
    repeat apply conj; reflexivity.
Qed.

(** *** The sliders *)

Example slider_clamps_above : Slider_onChange 0 50 80 = 50.
Proof. reflexivity. Qed.

Example slider_clamps_below : Slider_onChange 20 100 5 = 20.
Proof. reflexivity. Qed.

Example slider_keeps_inside : Slider_onChange 0 50 25 = 25.
Proof. reflexivity. Qed.

(** From every range in order, whatever the user aims at, the value
    either slider passes on leaves the range in order. *)
Example sliders_keep_the_order :
  forallb (fun s =>
    forallb (fun e =>
      forallb (fun v =>
        implb (in_order s e)
          (in_order (Slider_onChange 0 e v) e
           && in_order s (Slider_onChange s 100 v)))
        aims) percentages) percentages = true.
Proof. vm_compute. reflexivity. Qed.

(** C4.  The two ['ready'] writes that leave the range: a file of 250
    seconds gives [end_ = 250], above 100; and after a second file is
    selected while the sliders of the first are still shown, a start of
    80 followed by the ['ready'] of a 30-second file gives the crossed
    range [(80, 30)]. *)
Theorem ready_breaks_range_invariant :
  forall (ws : listeners_after_destroy) (v : variant)
         (decodeAudioData : File -> completion AudioBuffer),
    let long := run ws v decodeAudioData
                  [FileChange (Some [7%nat]); Ready 0%nat 250] initial_page in
    let crossed := run ws v decodeAudioData
                     [FileChange (Some [7%nat]); Ready 0%nat 200;
                      FileChange (Some [8%nat]); StartSlider 80;
                      Ready 1%nat 30] initial_page in
    TimeRange (state long) = (0, 250) /\
    (100 <? end_ (state long)) = true /\
    TimeRange (state crossed) = (80, 30) /\
    (end_ (state crossed) <? start (state crossed)) = true.
Proof.
  intros ws v dec; destruct ws, v; cbv zeta; repeat apply conj;
    vm_compute; reflexivity.
Qed.

(** *** Play and pause after a reset *)


(** Before any file was selected the guard does hold. *)
Lemma playPause_without_instance (ws : listeners_after_destroy)
  (decodeAudioData : File -> completion AudioBuffer) (p : Page) :
  waveSurferInstance (state p) = None ->
  step ws AudioCutter_tsx decodeAudioData PlayPause p = p.
Proof.
  intros H. unfold step, handle, handlePlayPause, if_instance, skip.
  rewrite H. unfold useEffect. now rewrite same_file_refl.
Qed.

(** *** The empty selection *)

(** C3.  An 800-frame mono clip at 8000 Hz (0.1 s) with both sliders at
    50: [createBuffer] is asked for 0 frames and throws; the [catch]
    logs the error, nothing is downloaded. *)
Theorem empty_selection_is_not_exported :
  forall (ws : listeners_after_destroy) (v : variant),
    let tenth := clip 8000 800 1 in
    let decodeAudioData := decoder 7%nat tenth in
    let p := run ws v decodeAudioData
               [FileChange (Some [7%nat]); Ready 0%nat (duration_of tenth);
                EndSlider 50; StartSlider 50] initial_page in
    TimeRange (state p) = (50, 50) /\
    frame_count tenth (startTime (state p)) (endTime (state p)) = 0%Z /\
    trim tenth (startTime (state p)) (endTime (state p))
      = Throw NotSupportedError /\
    calls (step ws v decodeAudioData Trim p)
      = calls p ++ [console_error NotSupportedError].
Proof.
  intros ws v; destruct ws, v; cbv zeta; repeat apply conj;
    vm_compute; reflexivity.
Qed.

(** *** The export *)

(** C2.  The download is always named [trimmed-audio.wav], but its
    bytes are the text [[object AudioBuffer]] whatever was trimmed: the
    two halves of an 8-frame clip have different samples and the same
    export, so no decoder gives the samples back. *)
Theorem export_forgets_samples :
  let b := clip 8000 8 1 in
  let D := duration_of b in
  exists first second : AudioBuffer,
    trim b (toSeconds 0 D) (toSeconds 50 D) = Return first /\
    trim b (toSeconds 50 D) (toSeconds 100 D) = Return second /\
    channelData first = [[1; 2; 3; 4]] /\
    channelData second = [[5; 6; 7; 8]] /\
    export first = export second /\
    blob_bytes (export first) = list_byte_of_string "[object AudioBuffer]" /\
    trim_chain (Return b) (toSeconds 0 D) (toSeconds 50 D)
      = [a_click "trimmed-audio.wav" (export first); source_start first] /\
    ~ (exists decode : list Byte.byte -> list (list number),
         forall trimmedBuffer,
           decode (blob_bytes (export trimmedBuffer)) = channelData trimmedBuffer).
Proof.
  cbv zeta.
  exists {| sampleRate := 8000; length := 4; channelData := [[1; 2; 3; 4]] |},
         {| sampleRate := 8000; length := 4; channelData := [[5; 6; 7; 8]] |}.
  repeat apply conj; try (vm_compute; reflexivity).
  intros [decode H].
  pose proof (H {| sampleRate := 8000; length := 1; channelData := [[1]] |}) as H1.
  pose proof (H {| sampleRate := 8000; length := 0; channelData := [] |}) as H2.
  rewrite export_bytes in H1, H2. rewrite H1 in H2. discriminate.
Qed.

(** *** The full range *)

(** C6.  With the range at [(0, 100)] and [duration] the duration of the
    decoded buffer, a mono clip of 15 frames at 44100 Hz is trimmed to its
    first 14 frames, and one of 1001 frames at 8000 Hz to its first 1000:
    [sampleRate * duration] falls just below the frame count and is
    truncated. *)
Theorem full_range_drops_last_frame :
  forall (ws : listeners_after_destroy) (v : variant),
    let short := clip 44100 15 1 in
    let eighth := clip 8000 1001 1 in
    let page (b : AudioBuffer) :=
      run ws v (decoder 7%nat b)
        [FileChange (Some [7%nat]); Ready 0%nat (duration_of b); EndSlider 100]
        initial_page in
    let trimmed (b : AudioBuffer) :=
      trim b (startTime (state (page b))) (endTime (state (page b))) in
    TimeRange (state (page short)) = (0, 100) /\
    duration (state (page short)) = duration_of short /\
    trimmed short
      = Return {| sampleRate := 44100; length := 14;
                  channelData := [firstn 14 (getChannelData short 0)] |} /\
    (exists blob,
       calls (step ws v (decoder 7%nat short) Trim (page short))
       = calls (page short)
         ++ [a_click "trimmed-audio.wav" blob;
             source_start
               {| sampleRate := 44100; length := 14;
                  channelData := [firstn 14 (getChannelData short 0)] |}]) /\
    TimeRange (state (page eighth)) = (0, 100) /\
    duration (state (page eighth)) = duration_of eighth /\
    trimmed eighth
      = Return {| sampleRate := 8000; length := 1000;
                  channelData := [firstn 1000 (getChannelData eighth 0)] |}.
Proof.
  intros ws v; destruct ws, v; cbv zeta; repeat apply conj;
    try (vm_compute; reflexivity);
    eexists; vm_compute; reflexivity.
Qed.

(** When the product is exact nothing is lost: a tenth of a second of
    stereo at 8000 Hz. *)
Example full_range_of_a_tenth :
  let b := clip 8000 800 2 in
  trim b (toSeconds 0 (duration_of b)) (toSeconds 100 (duration_of b)) = Return b.
Proof. vm_compute. reflexivity. Qed.

(** *** The frame count *)

(** C5.  A mono clip of 1650 frames at 8000 Hz (0.20625 s) with the
    sliders at 3 and 65.  The pair of times is valid; [trim] builds 1022
    frames, although the slice it copies holds 1023 samples, and the
    difference of the rounded frame indices is 1024 under either tie
    rule: two away from the frame count. *)
Theorem frame_count_two_off :
  forall (ws : listeners_after_destroy) (v : variant),
    let b := clip 8000 1650 1 in
    let p := run ws v (decoder 7%nat b)
               [FileChange (Some [7%nat]); Ready 0%nat (duration_of b);
                EndSlider 65; StartSlider 3] initial_page in
    let a := startTime (state p) in
    let e := endTime (state p) in
    TimeRange (state p) = (3, 65) /\
    (0 <=? a) = true /\ (a <=? e) = true /\ (e <=? duration_of b) = true /\
    (exists trimmedBuffer,
       trim b a e = Return trimmedBuffer /\
       Z.of_nat (length trimmedBuffer) = 1022%Z) /\
    List.length (slice (getChannelData b 0) (a * sampleRate b) (e * sampleRate b))
    = 1023%nat /\
    (round (exact e * exact (sampleRate b))
     - round (exact a * exact (sampleRate b)) = 1024)%Z /\
    (round_down (exact e * exact (sampleRate b))
     - round_down (exact a * exact (sampleRate b)) = 1024)%Z.
Proof.
  intros ws v; destruct ws, v; cbv zeta; repeat apply conj;
    try (vm_compute; reflexivity);
    match goal with
    | |- context [trim ?b ?a ?e] =>
        destruct (trim_returns b a e) as (tb & E & L & _);
        [ vm_compute; lia
        | vm_compute; discriminate
        | exists tb; split; [exact E | rewrite L; vm_compute; reflexivity] ]
    end.
Qed.



(** *** A file selected while another is loading *)




(** *** Trimming and the state *)

(** [handleTrim] calls no setter. *)
Lemma handleTrim_state (decodeAudioData : File -> completion AudioBuffer)
  (p : Page) :
  let p' := handleTrim decodeAudioData p in
  state p' = state p /\ effect_instance p' = effect_instance p /\
  next_instance p' = next_instance p.
Proof.
  unfold handleTrim.
  destruct (waveSurferInstance (state p)); simpl; auto.
  destruct (0 <? duration (state p)); simpl; auto.
  destruct (audioFile (state p)); simpl; auto.
Qed.

(** C9.  [trim()] leaves the six state cells, the mounted player and the
    instance counter as they were, whatever the state (so also when
    [duration > 0]); and when [duration] is 0 the whole page, calls
    included, is unchanged: nothing is fetched, built or downloaded. *)
Theorem trim_leaves_state :
  forall (ws : listeners_after_destroy) (v : variant)
         (decodeAudioData : File -> completion AudioBuffer) (p : Page),
    (let p' := step ws v decodeAudioData Trim p in
     state p' = state p /\
     effect_instance p' = effect_instance p /\
     next_instance p' = next_instance p) /\
    (duration (state p) = 0 -> step ws v decodeAudioData Trim p = p).
Proof.
  intros ws v dec p.
  destruct (handleTrim_state dec p) as (S1 & S2 & S3).
  assert (E : step ws v dec Trim p = handleTrim dec p).
  { apply step_same_file. simpl. now rewrite S1. }
  split.
  - cbv zeta. rewrite E. auto.
  - intros H. rewrite E. unfold handleTrim. rewrite H.
    destruct (waveSurferInstance (state p)); reflexivity.
Qed.

Lemma trim_leaves_state_witness :
  let dec := decoder 7%nat (clip 8000 8 1) in
  let loaded := run kept AudioCutter_tsx dec
                  [FileChange (Some [7%nat]); Ready 0%nat 1] initial_page in
  (state (step kept AudioCutter_tsx dec Trim loaded) = state loaded /\
   effect_instance (step kept AudioCutter_tsx dec Trim loaded)
   = effect_instance loaded /\
   next_instance (step kept AudioCutter_tsx dec Trim loaded)
   = next_instance loaded) /\
  step kept AudioCutter_tsx dec Trim initial_page = initial_page.
Proof.
  split.
  - exact (proj1 (trim_leaves_state kept AudioCutter_tsx
                    (decoder 7%nat (clip 8000 8 1))
                    (run kept AudioCutter_tsx (decoder 7%nat (clip 8000 8 1))
                       [FileChange (Some [7%nat]); Ready 0%nat 1]
                       initial_page))).
  - apply (proj2 (trim_leaves_state kept AudioCutter_tsx
                    (decoder 7%nat (clip 8000 8 1)) initial_page)).
    reflexivity.
Defined.

(** *** A new file and the old duration *)



(** Ten seconds recorded, then another file: the labels still read 0 s
    and 10 s. *)
Example stale_labels :
  let p := run kept AudioCutter_tsx (fun _ => Throw EncodingError)
             [FileChange (Some [7%nat]); Ready 0%nat 10;
              FileChange (Some [8%nat])] initial_page in
  TimeRange (state p) = (0, 100) /\
  startTime (state p) = 0 /\ endTime (state p) = 10.
Proof. vm_compute. repeat split. Qed.

(** ** The order of the numbers *)









Ltac triples :=
  repeat match goal with
    | a : (Z * Z * Z)%type |- _ => destruct a as [[? ?] ?]
    end;
  unfold lex_le, lex_lt in *.



Lemma lex_lt_le (a b : Z * Z * Z) : lex_lt a b -> lex_le a b.
Proof. triples. lia. Qed.




(** ** The sliders keep the range *)














(** ** One player at a time *)

Lemma alive_after_app (cs cs' : list call) (living : list WaveSurfer) :
  alive_after (cs ++ cs') living = alive_after cs' (alive_after cs living).
Proof.
  revert living. induction cs as [|c cs IH]; intros living; simpl; auto.
  destruct c; auto.
Qed.

Lemma alive_after_quiet (cs : list call) (living : list WaveSurfer) :
  forallb quiet cs = true -> alive_after cs living = living.
Proof.
  revert living. induction cs as [|c cs IH]; intros living; simpl; auto.
  intros H. apply andb_true_iff in H. destruct H as [Hc Hcs].
  destruct c; try discriminate; auto.
Qed.

Lemma trim_chain_quiet (decoded : completion AudioBuffer)
  (startTime endTime : number) :
  forallb quiet (trim_chain decoded startTime endTime) = true.
Proof.
  unfold trim_chain, then_trim. destruct decoded as [b|e]; simpl; auto.
  destruct (trim b startTime endTime); reflexivity.
Qed.

(** A handler only adds calls, and none of them creates or destroys a
    player. *)
Lemma handle_calls (ws : listeners_after_destroy) (v : variant)
  (decodeAudioData : File -> completion AudioBuffer) (ev : event) (p : Page) :
  exists cs, calls (handle ws v decodeAudioData ev p) = calls p ++ cs /\
             forallb quiet cs = true.
Proof.
  assert (Same : exists cs, calls p = calls p ++ cs /\ forallb quiet cs = true).
  { exists []. now rewrite app_nil_r. }
  destruct ev as [files|x|x| | | |w d|w]; unfold handle.
  - unfold handleFileChange. destruct files as [files|]; auto.
    handlers. destruct v; simpl;
      destruct (waveSurferInstance (state p)); simpl; auto;
      eexists; split; reflexivity.
  - unfold start_slider. destruct (0 <? duration (state p)); auto.
  - unfold end_slider. destruct (0 <? duration (state p)); auto.
  - destruct v; auto. handlers.
    destruct (waveSurferInstance (state p)); simpl; auto.
    eexists; split; reflexivity.
  - handlers. destruct (waveSurferInstance (state p)); simpl; auto.
    eexists; split; reflexivity.
  - unfold handleTrim. destruct (waveSurferInstance (state p)); auto.
    destruct (0 <? duration (state p)); auto.
    destruct (audioFile (state p)); simpl.
    + eexists. split; [reflexivity | apply trim_chain_quiet].
    + eexists. split; reflexivity.
  - destruct (listening ws w p); auto. handlers.
    destruct v; simpl; auto. eexists; split; reflexivity.
  - destruct (listening ws w p); auto.
Qed.

(** The player of the effect is the only one alive, and it was created
    for the file the page holds. *)
Lemma one_player_step (ws : listeners_after_destroy) (v : variant)
  (decodeAudioData : File -> completion AudioBuffer) (ev : event) (p : Page) :
  (alive p = match effect_instance p with Some w => [w] | None => [] end) ->
  (forall w, effect_instance p = Some w ->
     exists f, audioFile (state p) = Some f /\
               In (WaveSurfer_create w f) (calls p)) ->
  let p' := step ws v decodeAudioData ev p in
  (alive p' = match effect_instance p' with Some w => [w] | None => [] end) /\
  (forall w, effect_instance p' = Some w ->
     exists f, audioFile (state p') = Some f /\
               In (WaveSurfer_create w f) (calls p')).
Proof.
  intros A F. cbv zeta. unfold step.
  destruct (handle_calls ws v decodeAudioData ev p) as (cs & Ecs & Q).
  destruct (handle_instances ws v decodeAudioData ev p) as (E1 & _).
  set (q := handle ws v decodeAudioData ev p) in *.
  assert (Aq : alive q = alive p).
  { unfold alive. rewrite Ecs, alive_after_app. now apply alive_after_quiet. }
  unfold useEffect.
  destruct (same_file (audioFile (state p)) (audioFile (state q))) eqn:S.
  - apply same_file_true in S. split.
    + now rewrite Aq, E1.
    + intros w Hw. rewrite E1 in Hw. destruct (F w Hw) as (f & Hf & Hin).
      exists f. split; [congruence|]. rewrite Ecs. apply in_or_app. auto.
  - unfold andThen, effect_body, cleanup, setWaveSurferInstance, set_state,
      alive in *.
    rewrite E1.
    destruct (effect_instance p) as [w|]; simpl;
      destruct (audioFile (state q)) as [f|] eqn:Fq; simpl;
      rewrite ?E1, ?Fq, ?alive_after_app, ?Aq, ?A; simpl;
      try (destruct (Nat.eq_dec w w); [|congruence]); simpl;
      (split; [reflexivity|]); intros w' Hw'; try discriminate;
      exists f; (split; [reflexivity|]);
      apply in_or_app; right; inversion Hw'; subst; simpl; auto.
Qed.

Lemma one_player_run (ws : listeners_after_destroy) (v : variant)
  (decodeAudioData : File -> completion AudioBuffer) (evs : list event) :
  let p := run ws v decodeAudioData evs initial_page in
  (alive p = match effect_instance p with Some w => [w] | None => [] end) /\
  (forall w, effect_instance p = Some w ->
     exists f, audioFile (state p) = Some f /\
               In (WaveSurfer_create w f) (calls p)).
Proof.
  induction evs as [|ev evs IH] using rev_ind.
  - simpl. split; [reflexivity | discriminate].
  - rewrite run_snoc. destruct IH as [A F]. now apply one_player_step.
Qed.

Lemma quiet_no_create (cs : list call) (w : WaveSurfer) (f : File) :
  forallb quiet cs = true -> ~ In (WaveSurfer_create w f) cs.
Proof.
  intros Q H. rewrite forallb_forall in Q. apply Q in H. discriminate.
Qed.

(** Every player that was created is the effect's or was destroyed. *)
Lemma no_leak_step (ws : listeners_after_destroy) (v : variant)
  (decodeAudioData : File -> completion AudioBuffer) (ev : event) (p : Page) :
  (forall w f, In (WaveSurfer_create w f) (calls p) ->
     effect_instance p = Some w \/ In (ws_destroy w) (calls p)) ->
  let p' := step ws v decodeAudioData ev p in
  forall w f, In (WaveSurfer_create w f) (calls p') ->
    effect_instance p' = Some w \/ In (ws_destroy w) (calls p').
Proof.
  intros L. cbv zeta. unfold step.
  destruct (handle_calls ws v decodeAudioData ev p) as (cs & Ecs & Q).
  destruct (handle_instances ws v decodeAudioData ev p) as (E1 & _).
  set (q := handle ws v decodeAudioData ev p) in *.
  assert (Lq : forall w f, In (WaveSurfer_create w f) (calls q) ->
                 effect_instance q = Some w \/ In (ws_destroy w) (calls q)).
  { intros w f H. rewrite Ecs in H. apply in_app_or in H.
    destruct H as [H | H]; [|elim (quiet_no_create cs w f Q H)].
    rewrite E1, Ecs. destruct (L w f H); auto.
    right. apply in_or_app. auto. }
  clearbody q. clear L Ecs Q E1 cs.
  unfold useEffect. destruct (same_file _ _); [exact Lq|].
  unfold andThen, effect_body, cleanup, setWaveSurferInstance, set_state.
  intros w f.
  destruct (effect_instance q) as [w0|] eqn:Eq; simpl;
    destruct (audioFile (state q)) as [f0|] eqn:Fq; simpl;
    rewrite ?Eq; intros H;
    repeat (apply in_app_or in H; destruct H as [H | H]);
    simpl in H;
    try (destruct H as [H | []]; inversion H; subst; auto; fail);
    try (destruct (Lq w f H) as [G | G];
         [ inversion G; subst; right; apply in_or_app;
           try (left; apply in_or_app; right; now left);
           try (right; now left)
         | right; repeat (apply in_or_app; left); exact G ]; fail).
Qed.

Lemma no_leak_run (ws : listeners_after_destroy) (v : variant)
  (decodeAudioData : File -> completion AudioBuffer) (evs : list event) :
  let p := run ws v decodeAudioData evs initial_page in
  forall w f, In (WaveSurfer_create w f) (calls p) ->
    effect_instance p = Some w \/ In (ws_destroy w) (calls p).
Proof.
  induction evs as [|ev evs IH] using rev_ind.
  - simpl. intros w f [].
  - rewrite run_snoc. now apply no_leak_step.
Qed.

(** At every moment at most one player is alive: it is the one the
    effect created last, it was created for the file the page holds,
    it is the instance the handlers use, and there is none when the
    page holds no file. *)
Theorem one_player_alive :
  forall (ws : listeners_after_destroy) (v : variant)
         (decodeAudioData : File -> completion AudioBuffer)
         (evs : list event),
    let p := run ws v decodeAudioData evs initial_page in
    (List.length (alive p) <= 1)%nat /\
    (audioFile (state p) = None -> alive p = []) /\
    (forall f, audioFile (state p) = Some f ->
       exists w, alive p = [w] /\
                 waveSurferInstance (state p) = Some w /\
                 In (WaveSurfer_create w f) (calls p)) /\
    (forall w f, In (WaveSurfer_create w f) (calls p) ->
       In w (alive p) \/ In (ws_destroy w) (calls p)).
Proof.
  intros ws v dec evs p.
  destruct (one_player_run ws v dec evs) as [A F]. fold p in A, F.
  pose proof (run_consistent ws v dec evs) as C. fold p in C.
  pose proof (no_leak_run ws v dec evs) as L. fold p in L.
  repeat apply conj.
  - rewrite A. destruct (effect_instance p); simpl; lia.
  - intros N. rewrite A, (nothing_mounted _ C N). reflexivity.
  - intros f Hf. destruct (file_mounted _ C f Hf) as (w & Ew & Ww).
    exists w. rewrite A, Ew. repeat split; auto.
    destruct (F w Ew) as (f' & Hf' & Hin). congruence.
  - intros w f H. destruct (L w f H) as [G | G]; auto.
    rewrite A, G. left. now left.
Qed.

Lemma one_player_alive_witness :
  let p := run kept part_000 (fun _ => Throw EncodingError)
             [FileChange (Some [7%nat]); Ready 0%nat 10;
              FileChange (Some [8%nat]); Reset; FileChange (Some [9%nat])]
             initial_page in
  exists w, alive p = [w] /\
            waveSurferInstance (state p) = Some w /\
            In (WaveSurfer_create w 9%nat) (calls p).
Proof.
  exact (proj1 (proj2 (proj2
           (one_player_alive kept part_000 (fun _ => Throw EncodingError)
              [FileChange (Some [7%nat]); Ready 0%nat 10;
               FileChange (Some [8%nat]); Reset; FileChange (Some [9%nat])])))
           9%nat eq_refl).
Defined.

(** ** Before the first file and after a reset *)

(** As long as no instance was ever stored, the page is the initial one
    (up to its calls). *)
Lemma untouched_step (ws : listeners_after_destroy) (v : variant)
  (decodeAudioData : File -> completion AudioBuffer) (ev : event) (p : Page) :
  (waveSurferInstance (state p) = None ->
   state p = initial /\ effect_instance p = None /\ next_instance p = 0%nat) ->
  let p' := step ws v decodeAudioData ev p in
  waveSurferInstance (state p') = None ->
  state p' = initial /\ effect_instance p' = None /\ next_instance p' = 0%nat.
Proof.
  intros U. cbv zeta. intros N.
  assert (W : waveSurferInstance (state p) = None).
  { destruct (handle_instances ws v decodeAudioData ev p) as (_ & _ & E3).
    unfold step, useEffect in N.
    destruct (same_file _ _); [congruence|].
    unfold andThen, effect_body, cleanup, setWaveSurferInstance, set_state in N.
    destruct (effect_instance (handle ws v decodeAudioData ev p)); simpl in N;
      destruct (audioFile (state (handle ws v decodeAudioData ev p)));
      simpl in N; try discriminate; congruence. }
  destruct (U W) as (S & E & X).
  destruct p as [s e n cs]. simpl in *. subst s e n.
  revert N. unfold step, useEffect.
  destruct ev as [files|x|x| | | |w d|w]; simpl.
  - destruct files as [[|f files]|]; destruct v; simpl; auto; discriminate.
  - auto.
  - auto.
  - destruct v; simpl; auto.
  - auto.
  - auto.
  - destruct ws; simpl; auto.
  - destruct ws; simpl; auto.
Qed.

Lemma untouched_run (ws : listeners_after_destroy) (v : variant)
  (decodeAudioData : File -> completion AudioBuffer) (evs : list event) :
  let p := run ws v decodeAudioData evs initial_page in
  waveSurferInstance (state p) = None ->
  state p = initial /\ effect_instance p = None /\ next_instance p = 0%nat.
Proof.
  induction evs as [|ev evs IH] using rev_ind.
  - simpl. auto.
  - rewrite run_snoc. now apply untouched_step.
Qed.

(** The state [handleReset] leaves when an instance is stored. *)
Lemma handleReset_state (p : Page) (w : WaveSurfer) :
  waveSurferInstance (state p) = Some w ->
  state (handleReset p)
  = {| audioFile := None; waveSurferInstance := Some w; isPlaying := false;
       duration := 0; start := 0; end_ := 100 |} /\
  calls (handleReset p) = calls p ++ [ws_stop w].
Proof. intros H. handlers. rewrite H. simpl. rewrite H. auto. Qed.

Lemma useEffect_no_file (prev : option File) (q : Page) :
  audioFile (state q) = None ->
  waveSurferInstance (state (useEffect prev q)) = waveSurferInstance (state q).
Proof.
  intros H. unfold useEffect, andThen, effect_body, cleanup.
  destruct (same_file _ _); [reflexivity|].
  destruct (effect_instance q); simpl; rewrite H; reflexivity.
Qed.

Lemma state_cells (s : State) :
  s = {| audioFile := audioFile s;
         waveSurferInstance := waveSurferInstance s;
         isPlaying := isPlaying s; duration := duration s;
         start := start s; end_ := end_ s |}.
Proof. now destruct s. Qed.

(** One reset of a page that stores an instance. *)
Lemma step_Reset_state (ws : listeners_after_destroy) (v : variant)
  (decodeAudioData : File -> completion AudioBuffer) (p : Page)
  (w : WaveSurfer) :
  waveSurferInstance (state p) = Some w ->
  state (step ws v decodeAudioData Reset p)
  = {| audioFile := None; waveSurferInstance := Some w; isPlaying := false;
       duration := 0; start := 0; end_ := 100 |}.
Proof.
  intros H. destruct (handleReset_state p w H) as (S & _).
  unfold step, handle.
  destruct (useEffect_cells (audioFile (state p)) (handleReset p))
    as (C1 & C2 & C3 & C4).
  pose proof (useEffect_audioFile (audioFile (state p)) (handleReset p)) as C5.
  pose proof (useEffect_no_file (audioFile (state p)) (handleReset p)) as C6.
  rewrite S in *. simpl in *.
  rewrite (state_cells (state (useEffect _ _))).
  rewrite C1, C2, C3, C4, C5, C6; reflexivity.
Qed.

Lemma step_Reset_nothing (ws : listeners_after_destroy) (v : variant)
  (decodeAudioData : File -> completion AudioBuffer) (p : Page) :
  waveSurferInstance (state p) = None ->
  step ws v decodeAudioData Reset p = p.
Proof.
  intros H. unfold step, handle, handleReset, if_instance, skip.
  rewrite H. unfold useEffect. now rewrite same_file_refl.
Qed.

(** Reset, after any events: no file, duration 0, the range (0, 100),
    not playing, no player left alive; the stored instance is not
    cleared.  When no file was ever selected the page does not change at
    all, and a second reset changes no state cell. *)
Theorem reset_returns_to_no_file :
  forall (ws : listeners_after_destroy) (v : variant)
         (decodeAudioData : File -> completion AudioBuffer)
         (evs : list event),
    let p := run ws v decodeAudioData evs initial_page in
    let p' := step ws v decodeAudioData Reset p in
    audioFile (state p') = None /\
    duration (state p') = 0 /\
    TimeRange (state p') = (0, 100) /\
    isPlaying (state p') = false /\
    effect_instance p' = None /\
    alive p' = [] /\
    waveSurferInstance (state p') = waveSurferInstance (state p) /\
    (waveSurferInstance (state p) = None -> p' = p) /\
    state (step ws v decodeAudioData Reset p') = state p'.
Proof.
  intros ws v dec evs p p'.
  assert (Rp' : p' = run ws v dec (evs ++ [Reset]) initial_page)
    by (symmetry; apply run_snoc).
  pose proof (run_consistent ws v dec (evs ++ [Reset])) as C.
  destruct (one_player_run ws v dec (evs ++ [Reset])) as [A _].
  rewrite <- Rp' in C, A.
  assert (S : state p' = {| audioFile := None;
                            waveSurferInstance := waveSurferInstance (state p);
                            isPlaying := false; duration := 0;
                            start := 0; end_ := 100 |}).
  { destruct (waveSurferInstance (state p)) as [w|] eqn:W.
    - now apply step_Reset_state.
    - unfold p'. rewrite (step_Reset_nothing ws v dec p W).
      destruct (untouched_run ws v dec evs W) as (U & _).
      change (state p = initial) in U. now rewrite U. }
  assert (N : effect_instance p' = None).
  { apply (nothing_mounted _ C). now rewrite S. }
  repeat apply conj; try (rewrite S; reflexivity); auto.
  - now rewrite A, N.
  - intros W. now apply step_Reset_nothing.
  - destruct (waveSurferInstance (state p)) as [w|] eqn:W.
    + rewrite (step_Reset_state ws v dec p' w); [now rewrite S|].
      now rewrite S.
    + rewrite step_Reset_nothing; [reflexivity|]. now rewrite S.
Qed.

Lemma reset_returns_to_no_file_witness :
  let p := run removed AudioCutter_tsx (fun _ => Throw EncodingError)
             [] initial_page in
  step removed AudioCutter_tsx (fun _ => Throw EncodingError) Reset p = p.
Proof.
  apply (reset_returns_to_no_file removed AudioCutter_tsx
           (fun _ => Throw EncodingError) []).
  reflexivity.
Defined.

(** ** What [trim] copies *)



Section Copy.

Variable buffer : AudioBuffer.
Variables startTime endTime : number.


End Copy.








(** ** What a click on Trim does *)

Lemma trim_chain_outcome (decodeAudioData : File -> completion AudioBuffer)
  (s : State) (f : File) :
  audioFile s = Some f ->
  trim_chain (decodeAudioData f) (startTime s) (endTime s)
  = trim_outcome decodeAudioData s.
Proof.
  intros H. unfold trim_outcome, trim_chain, then_trim. rewrite H.
  destruct (decodeAudioData f) as [b|e]; simpl; auto.
  destruct (trim b (startTime s) (endTime s)); reflexivity.
Qed.

Lemma handleTrim_calls (decodeAudioData : File -> completion AudioBuffer)
  (p : Page) (w : WaveSurfer) :
  waveSurferInstance (state p) = Some w ->
  calls (handleTrim decodeAudioData p)
  = calls p ++ (if 0 <? duration (state p)
                then trim_outcome decodeAudioData (state p)
                else []).
Proof.
  intros H. unfold handleTrim. rewrite H.
  destruct (0 <? duration (state p)); [|now rewrite app_nil_r].
  destruct (audioFile (state p)) as [f|] eqn:F; simpl.
  - now rewrite (trim_chain_outcome decodeAudioData (state p) f F).
  - unfold trim_outcome. now rewrite F.
Qed.

Lemma step_Trim_calls (ws : listeners_after_destroy) (v : variant)
  (decodeAudioData : File -> completion AudioBuffer) (p : Page) :
  calls (step ws v decodeAudioData Trim p)
  = calls (handleTrim decodeAudioData p).
Proof.
  destruct (handleTrim_state decodeAudioData p) as (S1 & _).
  rewrite (step_same_file ws v decodeAudioData Trim p); [reflexivity|].
  simpl. now rewrite S1.
Qed.


(** ** An empty file list *)

Lemma handleFileChange_empty (v : variant) (p : Page) :
  let s := state (handleFileChange v (Some []) p) in
  start s = 0 /\ end_ s = 100 /\ duration s = duration (state p) /\
  audioFile s = None /\
  waveSurferInstance s = waveSurferInstance (state p).
Proof.
  handlers. destruct v; simpl;
    destruct (waveSurferInstance (state p)) eqn:W; simpl; auto.
Qed.

(** A change event whose file list is empty, on a page that holds a
    file: the page holds no file any more and its player is destroyed,
    the range is (0, 100), but [duration] stays.  If it is positive the
    Trim button is still there, and a click on it ends in the uncaught
    TypeError of [createObjectURL]: nothing is downloaded. *)
Theorem empty_file_list_clears_the_file :
  forall (ws : listeners_after_destroy) (v : variant)
         (decodeAudioData : File -> completion AudioBuffer)
         (evs : list event) (f : File),
    let p := run ws v decodeAudioData evs initial_page in
    let q := step ws v decodeAudioData (FileChange (Some [])) p in
    audioFile (state p) = Some f ->
    audioFile (state q) = None /\
    alive q = [] /\
    TimeRange (state q) = (0, 100) /\
    duration (state q) = duration (state p) /\
    ((0 <? duration (state p)) = true ->
     calls (step ws v decodeAudioData Trim q)
     = calls q ++ [uncaught TypeError]).
Proof.
  intros ws v dec evs f p q Hf.
  assert (Rq : q = run ws v dec (evs ++ [FileChange (Some [])]) initial_page)
    by (symmetry; apply run_snoc).
  pose proof (run_consistent ws v dec (evs ++ [FileChange (Some [])])) as C.
  destruct (one_player_run ws v dec (evs ++ [FileChange (Some [])])) as [A _].
  rewrite <- Rq in C, A.
  pose proof (run_consistent ws v dec evs) as Cp. fold p in Cp.
  destruct (file_mounted _ Cp f Hf) as (w & _ & Ww).
  destruct (handleFileChange_empty v p) as (Hs & He & Hd & Ha & Hw).
  assert (Fq : audioFile (state q) = None).
  { unfold q, step. now rewrite useEffect_audioFile. }
  assert (Wq : waveSurferInstance (state q) = Some w).
  { unfold q, step. rewrite useEffect_no_file by exact Ha.
    unfold handle. now rewrite Hw. }
  assert (Cq : duration (state q) = duration (state p) /\
               start (state q) = 0 /\ end_ (state q) = 100).
  { destruct (useEffect_cells (audioFile (state p))
                (handleFileChange v (Some []) p)) as (_ & Cd & Cs & Ce).
    unfold q, step, handle. now rewrite Cd, Cs, Ce, Hs, He, Hd. }
  destruct Cq as (Cd & Cs & Ce).
  repeat apply conj; auto.
  - rewrite A, (nothing_mounted _ C Fq). reflexivity.
  - unfold TimeRange. now rewrite Cs, Ce.
  - intros Pos. rewrite step_Trim_calls, (handleTrim_calls dec q w Wq).
    rewrite Cd, Pos. unfold trim_outcome. now rewrite Fq.
Qed.

Lemma empty_file_list_clears_the_file_witness :
  let dec := decoder 7%nat (clip 8000 8 1) in
  let p := run removed AudioCutter_tsx dec
             [FileChange (Some [7%nat]); Ready 0%nat 10] initial_page in
  let q := step removed AudioCutter_tsx dec (FileChange (Some [])) p in
  audioFile (state q) = None /\
  alive q = [] /\
  TimeRange (state q) = (0, 100) /\
  duration (state q) = duration (state p) /\
  ((0 <? duration (state p)) = true ->
   calls (step removed AudioCutter_tsx dec Trim q)
   = calls q ++ [uncaught TypeError]).
Proof.
  exact (empty_file_list_clears_the_file removed AudioCutter_tsx
           (decoder 7%nat (clip 8000 8 1))
           [FileChange (Some [7%nat]); Ready 0%nat 10] 7%nat eq_refl).
Defined.

(** ** [part_000]: playing means loaded *)



